(** * Summary request handlers (app/api/summaries.py)

    A shallow embedding of the five request handlers of the text
    summarizer API, of the FastAPI routing that surrounds them, and of
    the persistence and summarization collaborators they call.

    Python [int] is [Z], [str] is [string].  A handler is a computation
    in a state-and-exception monad over the world it acts on: the
    database behind [crud] and the queue of [BackgroundTasks]. *)

From Stdlib Require Import ZArith List String Bool Lia.
Import ListNotations.
Open Scope string_scope.
Open Scope Z_scope.

(** ** Schemas *)

(** Modelled from the spec: [SummarySchema] is declared in
    app/models/tortoise.py, outside summaries.py.  The stored entity has
    the four fields [id], [url], [summary], [created_at]. *)
Module SummarySchema.
Record t : Type := Build
    { id : Z; url : string; summary : string; created_at : Z }.
End SummarySchema.

(** Modelled from the spec: the three request and response schemas are
    declared in app/models/pydantic.py, outside summaries.py.  The
    create request carries [url] (kept in its string form, so that
    [str(payload.url)] is the field itself) and the two generation
    parameters ([int(payload.sentence_count)] is the field itself). *)
Module SummaryPayloadSchema.
Record t : Type := Build
    { url : string; summarizer_specifier : string; sentence_count : Z }.
End SummaryPayloadSchema.

Module SummaryResponseSchema.
Record t : Type := Build
    { url : string; id : Z; summarizer_specifier : string; sentence_count : Z }.
End SummaryResponseSchema.

Module SummaryUpdatePayloadSchema.
Record t : Type := Build { url : string; summary : string }.
End SummaryUpdatePayloadSchema.

(** ** The persistence collaborator, as an interface *)

(** Modelled from the spec: app/api/crud.py lies outside summaries.py;
    the handlers reach it only through these five calls
    ([insert], [find], [find_all], [update], [delete] in the spec's
    contract).  Each call may read and write the database [DB]. *)
Module crud.
Record t (DB : Type) : Type := Build
    { post : SummaryPayloadSchema.t -> DB -> Z * DB;
      get : Z -> DB -> option SummarySchema.t * DB;
      get_all : DB -> list SummarySchema.t * DB;
      put : Z -> SummaryUpdatePayloadSchema.t -> DB -> option SummarySchema.t * DB;
      delete : Z -> DB -> bool * DB }.
Arguments post {DB}.
Arguments get {DB}.
Arguments get_all {DB}.
Arguments put {DB}.
Arguments delete {DB}.
End crud.

(** ** Background tasks *)

(** [background_tasks.add_task(generate_summary, a, b, c, d)] records the
    call; it does not make it.  [generate_summary] is the only function
    ever scheduled, so a task is its four arguments. *)
Inductive Task : Type :=
  | GenerateSummary (summary_id : Z) (url : string)
                    (summarizer_specifier : string) (sentence_count : Z).

(** ** Worlds and the handler monad *)

Record World (DB : Type) : Type := mkWorld
  { db : DB; background_tasks : list Task }.
Arguments mkWorld {DB}.
Arguments db {DB}.
Arguments background_tasks {DB}.

Inductive HTTPException : Type :=
  | SummaryNotFoundException
  | RequestValidationError.

(** A raised exception leaves the writes made before it in place. *)
Definition M (DB A : Type) : Type := World DB -> (HTTPException + A) * World DB.

Definition ret {DB A} (a : A) : M DB A := fun w => (inr a, w).

Definition bind {DB A B} (c : M DB A) (k : A -> M DB B) : M DB B :=
  fun w =>
    match c w with
    | (inl e, w1) => (inl e, w1)
    | (inr a, w1) => k a w1
    end.

Definition raise {DB A} (e : HTTPException) : M DB A := fun w => (inl e, w).

(** [await crud.f(...)]: run a persistence call against the database. *)
Definition await {DB A} (call : DB -> A * DB) : M DB A :=
  fun w =>
    let (a, d) := call (db w) in
    (inr a, mkWorld d (background_tasks w)).

Definition add_task {DB} (t : Task) : M DB unit :=
  fun w => (inr tt, mkWorld (db w) (background_tasks w ++ [t])).

Declare Scope handler_scope.
Delimit Scope handler_scope with handler.
Notation "x <- c ;; k" := (bind c (fun x => k))
  (at level 61, c at next level, right associativity) : handler_scope.
Notation "c ;; k" := (bind c (fun _ => k))
  (at level 61, right associativity) : handler_scope.
Open Scope handler_scope.

(** ** The handlers *)

Section Handlers.

Context {DB : Type}.
Variable crud : crud.t DB.

(** [create_summary], summaries.py lines 37-52. *)
Definition create_summary (payload : SummaryPayloadSchema.t)
  : M DB SummaryResponseSchema.t :=
  summary_id <- await (crud.post crud payload) ;;
  add_task (GenerateSummary summary_id
              (SummaryPayloadSchema.url payload)
              (SummaryPayloadSchema.summarizer_specifier payload)
              (SummaryPayloadSchema.sentence_count payload)) ;;
  let response :=
    SummaryResponseSchema.Build
      (SummaryPayloadSchema.url payload)
      summary_id
      (SummaryPayloadSchema.summarizer_specifier payload)
      (SummaryPayloadSchema.sentence_count payload) in
  ret response.

(** [read_summary], lines 75-79.  [if not summary] holds exactly for
    [None]: a record is never an empty mapping. *)
Definition read_summary (id : Z) : M DB SummarySchema.t :=
  summary <- await (crud.get crud id) ;;
  match summary with
  | None => raise SummaryNotFoundException
  | Some s => ret s
  end.

(** [read_all_summaries], line 92. *)
Definition read_all_summaries : M DB (list SummarySchema.t) :=
  await (crud.get_all crud).

(** [remove_summary], lines 117-124.  The value of [crud.delete] is
    dropped. *)
Definition remove_summary (id : Z) : M DB SummarySchema.t :=
  summary <- await (crud.get crud id) ;;
  match summary with
  | None => raise SummaryNotFoundException
  | Some s =>
      await (crud.delete crud id) ;;
      ret s
  end.

(** [update_summary], lines 152-156. *)
Definition update_summary (id : Z) (payload : SummaryUpdatePayloadSchema.t)
  : M DB SummarySchema.t :=
  summary <- await (crud.put crud id payload) ;;
  match summary with
  | None => raise SummaryNotFoundException
  | Some s => ret s
  end.

End Handlers.

(** ** Routing: what FastAPI does around a handler *)

#[warnings="-register-all"]
Inductive JSON : Type :=
  | JInt (n : Z)
  | JStr (s : string)
  | JArray (items : list JSON)
  | JObject (fields : list (string * JSON)).

Definition field_names (j : JSON) : list string :=
  match j with
  | JObject fields => map fst fields
  | _ => []
  end.

Record Response : Type := mkResponse { status_code : Z; content : JSON }.

Inductive Request : Type :=
  | POST (payload : SummaryPayloadSchema.t)
  | GET (id : Z)
  | GET_ALL
  | DELETE (id : Z)
  | PUT (id : Z) (payload : SummaryUpdatePayloadSchema.t).

(** [response_model=SummarySchema]: the four fields of the entity. *)
Definition SummarySchema_json (s : SummarySchema.t) : JSON :=
  JObject [ ("id", JInt (SummarySchema.id s));
            ("url", JStr (SummarySchema.url s));
            ("summary", JStr (SummarySchema.summary s));
            ("created_at", JInt (SummarySchema.created_at s)) ].

(** [response_model=SummaryResponseSchema]. *)
Definition SummaryResponseSchema_json (r : SummaryResponseSchema.t) : JSON :=
  JObject [ ("url", JStr (SummaryResponseSchema.url r));
            ("id", JInt (SummaryResponseSchema.id r));
            ("summarizer_specifier", JStr (SummaryResponseSchema.summarizer_specifier r));
            ("sentence_count", JInt (SummaryResponseSchema.sentence_count r)) ].

(** Modelled from the spec: [SummaryNotFoundException] is declared in
    app/api/custom_exceptions.py, outside summaries.py.  Not-Found is
    answered with 404; a request that fails validation is answered by
    FastAPI with 422. *)
Definition status_of (e : HTTPException) : Z :=
  match e with
  | SummaryNotFoundException => 404
  | RequestValidationError => 422
  end.

Section Routing.

Context {DB : Type}.
Variable crud : crud.t DB.

(** Modelled from the spec: the url validator of [SummaryPayloadSchema]
    lives in app/models/pydantic.py; it is taken as a parameter. *)
Variable valid_url : string -> bool.

(** What the body of an error response says is fixed outside
    summaries.py; it is taken as a parameter. *)
Variable error_body : HTTPException -> JSON.

Definition exception_handler (e : HTTPException) : Response :=
  mkResponse (status_of e) (error_body e).

(** [Path(..., gt=0)] on a path parameter. *)
Definition Path_gt (bound v : Z) : M DB unit :=
  if bound <? v then ret tt else raise RequestValidationError.

(** Modelled from the spec: [url] must be a valid absolute URL and
    [sentence_count] a positive integer; [summarizer_specifier] is not
    checked. *)
Definition validate_payload (payload : SummaryPayloadSchema.t) : M DB unit :=
  if valid_url (SummaryPayloadSchema.url payload)
     && (0 <? SummaryPayloadSchema.sentence_count payload)
  then ret tt else raise RequestValidationError.

(** Serialise a handler's result through its [response_model], or pass
    its exception to the exception handler. *)
Definition respond {A} (status : Z) (response_model : A -> JSON) (c : M DB A)
  : World DB -> Response * World DB :=
  fun w =>
    match c w with
    | (inr a, w1) => (mkResponse status (response_model a), w1)
    | (inl e, w1) => (exception_handler e, w1)
    end.

(** The router of summaries.py: decorators at lines 18, 55, 82, 95, 127
    and the [Path] annotations at lines 56, 97, 129. *)
Definition router (req : Request) : World DB -> Response * World DB :=
  match req with
  | POST payload =>
      respond 201 SummaryResponseSchema_json
        (validate_payload payload ;; create_summary crud payload)
  | GET id =>
      respond 200 SummarySchema_json
        (Path_gt 0 id ;; read_summary crud id)
  | GET_ALL =>
      respond 200 (fun l => JArray (map SummarySchema_json l))
        (read_all_summaries crud)
  | DELETE id =>
      respond 200 SummarySchema_json
        (Path_gt 0 id ;; remove_summary crud id)
  | PUT id payload =>
      respond 200 SummarySchema_json
        (Path_gt 0 id ;; update_summary crud id payload)
  end.

End Routing.

(** ** The persistence collaborator, modelled *)

Module Persistence.

(** Modelled from the spec: app/api/crud.py and the database behind it
    lie outside summaries.py.  A table of summary records
    in insertion order, the next id the table will assign, and the
    clock that stamps [created_at]. *)
Record Store : Type := mkStore
  { rows : list SummarySchema.t; next_id : Z; clock : Z }.

Definition has_id (i : Z) (r : SummarySchema.t) : bool :=
  SummarySchema.id r =? i.

(** Modelled from the spec: [insert(url) -> id]; the new record has the
    given url and empty summary text, and a newly assigned id. *)
Definition insert (payload : SummaryPayloadSchema.t) (st : Store) : Z * Store :=
  let r := SummarySchema.Build (next_id st)
             (SummaryPayloadSchema.url payload) "" (clock st) in
  (next_id st, mkStore (rows st ++ [r]) (next_id st + 1) (clock st)).

(** Modelled from the spec: [find(id) -> record | absent]. *)
Definition find (i : Z) (st : Store) : option SummarySchema.t * Store :=
  (List.find (has_id i) (rows st), st).

(** Modelled from the spec: [find_all() -> sequence]. *)
Definition find_all (st : Store) : list SummarySchema.t * Store :=
  (rows st, st).

Definition overwrite (payload : SummaryUpdatePayloadSchema.t)
  (r : SummarySchema.t) : SummarySchema.t :=
  SummarySchema.Build (SummarySchema.id r)
    (SummaryUpdatePayloadSchema.url payload)
    (SummaryUpdatePayloadSchema.summary payload)
    (SummarySchema.created_at r).

(** Modelled from the spec: [update(id, url, summary) -> record | absent];
    both fields are replaced, [id] and [created_at] are immutable. *)
Definition update (i : Z) (payload : SummaryUpdatePayloadSchema.t) (st : Store)
  : option SummarySchema.t * Store :=
  match List.find (has_id i) (rows st) with
  | None => (None, st)
  | Some r =>
      (Some (overwrite payload r),
       mkStore (map (fun x => if has_id i x then overwrite payload x else x) (rows st))
               (next_id st) (clock st))
  end.

(** Modelled from the spec: [delete(id) -> bool]. *)
Definition delete (i : Z) (st : Store) : bool * Store :=
  (existsb (has_id i) (rows st),
   mkStore (filter (fun x => negb (has_id i x)) (rows st)) (next_id st) (clock st)).

Definition crud : crud.t Store :=
  crud.Build Store insert find find_all update delete.

Definition empty : Store := mkStore [] 1 0.

Definition ids (st : Store) : list Z := map SummarySchema.id (rows st).

End Persistence.

(** ** The summarization collaborator, modelled *)

Section Summarizer.

(** The summarization library: text for a url, a strategy and a length. *)
Variable summarize : string -> string -> Z -> string.

Definition set_summary (text : string) (r : SummarySchema.t) : SummarySchema.t :=
  SummarySchema.Build (SummarySchema.id r) (SummarySchema.url r) text
    (SummarySchema.created_at r).

(** Modelled from the spec: [generate_summary] is defined in
    app/summarizer.py, outside summaries.py.
    [generate(id, url, specifier, sentence_count)] writes the
    generated text onto the stored record; when the record is gone the
    write is lost and nobody is told. *)
Definition generate_summary (summary_id : Z) (url specifier : string)
  (sentence_count : Z) (st : Persistence.Store) : Persistence.Store :=
  Persistence.mkStore
    (map (fun r => if Persistence.has_id summary_id r
                   then set_summary (summarize url specifier sentence_count) r
                   else r)
         (Persistence.rows st))
    (Persistence.next_id st) (Persistence.clock st).

Definition run_task (t : Task) (st : Persistence.Store) : Persistence.Store :=
  match t with
  | GenerateSummary i u s n => generate_summary i u s n st
  end.

End Summarizer.

(** ** The running service *)

(** What can happen to the service: a request arrives and is answered,
    the runtime runs the oldest scheduled background task, or time
    passes. *)
Inductive Event : Type :=
  | Call (req : Request)
  | RunTask
  | Tick.

Definition Exchange : Type := (Request * Response)%type.

Section Service.

Variable valid_url : string -> bool.
Variable error_body : HTTPException -> JSON.
Variable summarize : string -> string -> Z -> string.

Definition step (e : Event) (st : list Exchange * World Persistence.Store)
  : list Exchange * World Persistence.Store :=
  let (log, w) := st in
  match e with
  | Call req =>
      let (resp, w1) := router Persistence.crud valid_url error_body req w in
      ((req, resp) :: log, w1)
  | RunTask =>
      match background_tasks w with
      | [] => (log, w)
      | t :: rest => (log, mkWorld (run_task summarize t (db w)) rest)
      end
  | Tick =>
      (log, mkWorld (Persistence.mkStore (Persistence.rows (db w))
                       (Persistence.next_id (db w))
                       (Persistence.clock (db w) + 1))
                    (background_tasks w))
  end.

Definition boot : list Exchange * World Persistence.Store :=
  ([], mkWorld Persistence.empty []).

(** The service after a history of events; the log holds the exchanges
    so far, newest first. *)
Definition serve (es : list Event) : list Exchange * World Persistence.Store :=
  fold_left (fun st e => step e st) es boot.

End Service.

Fixpoint lookup_field (k : string) (fields : list (string * JSON)) : option JSON :=
  match fields with
  | [] => None
  | (k', v) :: rest => if String.eqb k k' then Some v else lookup_field k rest
  end.

(** The [id] field of a response body, 0 when it has none. *)
Definition response_id (resp : Response) : Z :=
  match content resp with
  | JObject fields =>
      match lookup_field "id" fields with
      | Some (JInt i) => i
      | _ => 0
      end
  | _ => 0
  end.

Definition is_created (x : Exchange) : bool :=
  match x with
  | (POST _, resp) => status_code resp =? 201
  | _ => false
  end.

Definition is_deleted (x : Exchange) : bool :=
  match x with
  | (DELETE _, resp) => status_code resp =? 200
  | _ => false
  end.

(** Ids handed out by the creates of a log. *)
Definition assigned_ids (log : list Exchange) : list Z :=
  map (fun x => response_id (snd x)) (filter is_created log).

Definition request_id (req : Request) : Z :=
  match req with
  | GET i | DELETE i | PUT i _ => i
  | POST _ | GET_ALL => 0
  end.

(** Ids removed by the deletes of a log. *)
Definition deleted_ids (log : list Exchange) : list Z :=
  map (fun x => request_id (fst x)) (filter is_deleted log).

Definition creates (log : list Exchange) : Z :=
  Z.of_nat (List.length (filter is_created log)).

Definition deletes (log : list Exchange) : Z :=
  Z.of_nat (List.length (filter is_deleted log)).

(** Ids created and not yet deleted, oldest first (the log is newest
    first). *)
Fixpoint live_ids (log : list Exchange) : list Z :=
  match log with
  | [] => []
  | (POST _, resp) :: older =>
      if status_code resp =? 201
      then live_ids older ++ [response_id resp]
      else live_ids older
  | (DELETE i, resp) :: older =>
      if status_code resp =? 200
      then filter (fun j => negb (j =? i)) (live_ids older)
      else live_ids older
  | _ :: older => live_ids older
  end.

(** What every history of the service keeps true of its table: the
    rows are those created and not deleted, ids are distinct, positive
    and below the next id to assign, as is every id ever assigned. *)
Record consistent (log : list Exchange) (st : Persistence.Store) : Prop :=
  mkConsistent
  { live_rows : Persistence.ids st = live_ids log;
    ids_distinct : NoDup (Persistence.ids st);
    ids_below_next :
      forall i, In i (Persistence.ids st) -> 0 < i < Persistence.next_id st;
    assigned_below_next :
      forall i, In i (assigned_ids log) -> 0 < i < Persistence.next_id st;
    deleted_below_next :
      forall i, In i (deleted_ids log) -> 0 < i < Persistence.next_id st;
    live_are_created_not_deleted :
      forall i, In i (live_ids log) <->
                In i (assigned_ids log) /\ ~ In i (deleted_ids log);
    next_id_positive : 0 < Persistence.next_id st;
    row_count :
      Z.of_nat (List.length (Persistence.rows st)) = creates log - deletes log }.

(** ** Sample collaborators, used to run the model on concrete inputs *)

Definition http_prefix_url (u : string) : bool :=
  String.prefix "http://" u || String.prefix "https://" u.

Definition plain_error_body (e : HTTPException) : JSON :=
  match e with
  | SummaryNotFoundException => JObject [("detail", JStr "not found")]
  | RequestValidationError => JObject [("detail", JArray [])]
  end.

Definition first_words (url specifier : string) (sentence_count : Z) : string :=
  "summary of " ++ url.

(** A persistence layer whose [delete] reports failure and removes
    nothing. *)
Definition refusing_crud : crud.t Persistence.Store :=
  crud.Build Persistence.Store
    Persistence.insert Persistence.find Persistence.find_all Persistence.update
    (fun _ st => (false, st)).

Definition example_payload : SummaryPayloadSchema.t :=
  SummaryPayloadSchema.Build "https://example.com" "default" 3.

Definition example_record : SummarySchema.t :=
  SummarySchema.Build 1 "https://example.com" "" 0.

(** The world after one create, before its background task has run. *)
Definition one_record_world : World Persistence.Store :=
  mkWorld (Persistence.mkStore [example_record] 2 0)
          [GenerateSummary 1 "https://example.com" "default" 3].

(** ** Vocabulary for the properties of the whole service *)

(** The persistence layer [c] with its [delete] replaced. *)
Definition with_delete {DB : Type} (c : crud.t DB) (d : Z -> DB -> bool * DB)
  : crud.t DB :=
  crud.Build DB (crud.post c) (crud.get c) (crud.get_all c) (crud.put c) d.

(** A [delete] that empties the table, whatever id it is given. *)
Definition wipe (i : Z) (st : Persistence.Store) : bool * Persistence.Store :=
  (true, Persistence.mkStore [] (Persistence.next_id st) (Persistence.clock st)).



(** Get and Get-all requests. *)
Definition is_read (e : Event) : bool :=
  match e with
  | Call (GET _) | Call GET_ALL => true
  | _ => false
  end.

(** * Properties *)

(** ** Lookups in the table *)

Lemma has_id_true i r : Persistence.has_id i r = true <-> SummarySchema.id r = i.
Proof. unfold Persistence.has_id. apply Z.eqb_eq. Qed.

Lemma has_id_false i r : Persistence.has_id i r = false <-> SummarySchema.id r <> i.
Proof. unfold Persistence.has_id. apply Z.eqb_neq. Qed.

Lemma find_absent i (l : list SummarySchema.t) :
  List.find (Persistence.has_id i) l = None <->
  (forall r, In r l -> SummarySchema.id r <> i).
Proof.
  split.
  - intros H r Hr. apply has_id_false. exact (find_none _ _ H r Hr).
  - induction l as [|x l IH]; intros H; simpl; [reflexivity|].
    destruct (Persistence.has_id i x) eqn:E.
    + apply has_id_true in E. exfalso. apply (H x); [now left | exact E].
    + apply IH. intros r Hr. apply H. now right.
Qed.

Lemma find_present i (l : list SummarySchema.t) r :
  List.find (Persistence.has_id i) l = Some r -> In r l /\ SummarySchema.id r = i.
Proof.
  intros H. apply find_some in H. destruct H as [Hin Hid].
  split; [assumption | now apply has_id_true].
Qed.

Lemma find_after_delete i (l : list SummarySchema.t) :
  List.find (Persistence.has_id i)
    (filter (fun x => negb (Persistence.has_id i x)) l) = None.
Proof.
  apply find_absent. intros r Hr.
  apply filter_In in Hr. destruct Hr as [_ Hr].
  apply has_id_false. now apply negb_true_iff.
Qed.

Lemma overwrite_id p r :
  SummarySchema.id (Persistence.overwrite p r) = SummarySchema.id r.
Proof. reflexivity. Qed.

Lemma find_after_update i p (l : list SummarySchema.t) r :
  List.find (Persistence.has_id i) l = Some r ->
  List.find (Persistence.has_id i)
    (map (fun x => if Persistence.has_id i x then Persistence.overwrite p x else x) l)
  = Some (Persistence.overwrite p r).
Proof.
  induction l as [|x l IH]; simpl; [discriminate|].
  destruct (Persistence.has_id i x) eqn:E.
  - intros [= ->]. simpl.
    unfold Persistence.has_id in *. rewrite overwrite_id, E. reflexivity.
  - intros H. simpl. rewrite E. now apply IH.
Qed.

(** ** Running a handler: one equation per outcome *)

Ltac run_handler :=
  unfold read_summary, remove_summary, update_summary, create_summary,
         read_all_summaries, bind, await, add_task, raise, ret; simpl.

Lemma read_summary_found (w : World Persistence.Store) i r :
  List.find (Persistence.has_id i) (Persistence.rows (db w)) = Some r ->
  read_summary Persistence.crud i w = (inr r, w).
Proof. intros H. run_handler. rewrite H. now destruct w. Qed.

Lemma read_summary_missing (w : World Persistence.Store) i :
  List.find (Persistence.has_id i) (Persistence.rows (db w)) = None ->
  read_summary Persistence.crud i w = (inl SummaryNotFoundException, w).
Proof. intros H. run_handler. rewrite H. now destruct w. Qed.

Lemma remove_summary_found (w : World Persistence.Store) i r :
  List.find (Persistence.has_id i) (Persistence.rows (db w)) = Some r ->
  remove_summary Persistence.crud i w =
    (inr r, mkWorld (snd (Persistence.delete i (db w))) (background_tasks w)).
Proof. intros H. run_handler. rewrite H. reflexivity. Qed.

Lemma remove_summary_missing (w : World Persistence.Store) i :
  List.find (Persistence.has_id i) (Persistence.rows (db w)) = None ->
  remove_summary Persistence.crud i w = (inl SummaryNotFoundException, w).
Proof. intros H. run_handler. rewrite H. now destruct w. Qed.

Lemma update_summary_found (w : World Persistence.Store) i p r :
  List.find (Persistence.has_id i) (Persistence.rows (db w)) = Some r ->
  update_summary Persistence.crud i p w =
    (inr (Persistence.overwrite p r),
     mkWorld (snd (Persistence.update i p (db w))) (background_tasks w)).
Proof.
  intros H. run_handler. unfold Persistence.update. rewrite H. reflexivity.
Qed.

Lemma update_summary_missing (w : World Persistence.Store) i p :
  List.find (Persistence.has_id i) (Persistence.rows (db w)) = None ->
  update_summary Persistence.crud i p w = (inl SummaryNotFoundException, w).
Proof.
  intros H. run_handler. unfold Persistence.update. rewrite H.
  destruct w as [[l n c] q]. reflexivity.
Qed.

(** ** Routing a path id *)

Section RoutingFacts.

Context {DB : Type}.

Lemma Path_gt_accepts (i : Z) (w : World DB) {A} (k : M DB A) :
  0 < i -> (Path_gt 0 i ;; k) w = k w.
Proof.
  intros H. unfold bind, Path_gt.
  destruct (Z.ltb_spec 0 i); [reflexivity | lia].
Qed.

Lemma Path_gt_rejects (i : Z) (w : World DB) {A} (k : M DB A) :
  i <= 0 -> (Path_gt 0 i ;; k) w = (inl RequestValidationError, w).
Proof.
  intros H. unfold bind, Path_gt.
  destruct (Z.ltb_spec 0 i); [lia | reflexivity].
Qed.

End RoutingFacts.

(** ** The router over the modelled table, case by case *)

Section RouterOnTable.

Variable valid_url : string -> bool.
Variable error_body : HTTPException -> JSON.

Lemma router_POST (p : SummaryPayloadSchema.t) (w : World Persistence.Store) :
  router Persistence.crud valid_url error_body (POST p) w =
  if valid_url (SummaryPayloadSchema.url p)
     && (0 <? SummaryPayloadSchema.sentence_count p)
  then (mkResponse 201
          (SummaryResponseSchema_json
             (SummaryResponseSchema.Build
                (SummaryPayloadSchema.url p) (Persistence.next_id (db w))
                (SummaryPayloadSchema.summarizer_specifier p)
                (SummaryPayloadSchema.sentence_count p))),
        snd (create_summary Persistence.crud p w))
  else (exception_handler error_body RequestValidationError, w).
Proof.
  unfold router, respond, bind, validate_payload.
  destruct (valid_url _ && _); reflexivity.
Qed.

Lemma router_GET (i : Z) (w : World Persistence.Store) :
  router Persistence.crud valid_url error_body (GET i) w =
  if 0 <? i then
    match List.find (Persistence.has_id i) (Persistence.rows (db w)) with
    | Some r => (mkResponse 200 (SummarySchema_json r), w)
    | None => (exception_handler error_body SummaryNotFoundException, w)
    end
  else (exception_handler error_body RequestValidationError, w).
Proof.
  unfold router, respond. destruct (Z.ltb_spec 0 i) as [H|H].
  - rewrite Path_gt_accepts by exact H.
    destruct (List.find (Persistence.has_id i) (Persistence.rows (db w))) eqn:F.
    + now rewrite (read_summary_found _ _ _ F).
    + now rewrite (read_summary_missing _ _ F).
  - now rewrite Path_gt_rejects.
Qed.

Lemma router_GET_ALL (w : World Persistence.Store) :
  router Persistence.crud valid_url error_body GET_ALL w
  = (mkResponse 200 (JArray (map SummarySchema_json (Persistence.rows (db w)))), w).
Proof. unfold router, respond. run_handler. now destruct w. Qed.

Lemma router_DELETE (i : Z) (w : World Persistence.Store) :
  router Persistence.crud valid_url error_body (DELETE i) w =
  if 0 <? i then
    match List.find (Persistence.has_id i) (Persistence.rows (db w)) with
    | Some r => (mkResponse 200 (SummarySchema_json r),
                 mkWorld (snd (Persistence.delete i (db w))) (background_tasks w))
    | None => (exception_handler error_body SummaryNotFoundException, w)
    end
  else (exception_handler error_body RequestValidationError, w).
Proof.
  unfold router, respond. destruct (Z.ltb_spec 0 i) as [H|H].
  - rewrite Path_gt_accepts by exact H.
    destruct (List.find (Persistence.has_id i) (Persistence.rows (db w))) eqn:F.
    + now rewrite (remove_summary_found _ _ _ F).
    + now rewrite (remove_summary_missing _ _ F).
  - now rewrite Path_gt_rejects.
Qed.

Lemma router_PUT (i : Z) (p : SummaryUpdatePayloadSchema.t)
  (w : World Persistence.Store) :
  router Persistence.crud valid_url error_body (PUT i p) w =
  if 0 <? i then
    match List.find (Persistence.has_id i) (Persistence.rows (db w)) with
    | Some r => (mkResponse 200 (SummarySchema_json (Persistence.overwrite p r)),
                 mkWorld (snd (Persistence.update i p (db w))) (background_tasks w))
    | None => (exception_handler error_body SummaryNotFoundException, w)
    end
  else (exception_handler error_body RequestValidationError, w).
Proof.
  unfold router, respond. destruct (Z.ltb_spec 0 i) as [H|H].
  - rewrite Path_gt_accepts by exact H.
    destruct (List.find (Persistence.has_id i) (Persistence.rows (db w))) eqn:F.
    + now rewrite (update_summary_found _ _ _ _ F).
    + now rewrite (update_summary_missing _ _ _ F).
  - now rewrite Path_gt_rejects.
Qed.

End RouterOnTable.

(** ** Get *)

(** C2.  For a positive id, Get signals Not-Found (the handler raises
    [SummaryNotFoundException], the client sees 404) exactly when the
    table holds no record with that id; when one is held, Get returns
    that record, whole and as stored now, with status 200 and the world
    untouched. *)
Theorem get_not_found_iff_absent :
  forall (valid_url : string -> bool) (error_body : HTTPException -> JSON)
         (w : World Persistence.Store) (i : Z),
    0 < i ->
    let absent :=
      forall r, In r (Persistence.rows (db w)) -> SummarySchema.id r <> i in
    (fst (read_summary Persistence.crud i w) = inl SummaryNotFoundException
       <-> absent)
    /\ (status_code (fst (router Persistence.crud valid_url error_body (GET i) w)) = 404
       <-> absent)
    /\ (~ absent ->
        exists r,
          In r (Persistence.rows (db w)) /\ SummarySchema.id r = i
          /\ read_summary Persistence.crud i w = (inr r, w)
          /\ router Persistence.crud valid_url error_body (GET i) w
             = (mkResponse 200
                  (JObject [ ("id", JInt i);
                             ("url", JStr (SummarySchema.url r));
                             ("summary", JStr (SummarySchema.summary r));
                             ("created_at", JInt (SummarySchema.created_at r)) ]),
                w)).
Proof.
  intros valid_url error_body w i Hpos absent.
  rewrite router_GET. apply Z.ltb_lt in Hpos. rewrite Hpos.
  destruct (List.find (Persistence.has_id i) (Persistence.rows (db w))) as [r|] eqn:F.
  - pose proof (find_present _ _ _ F) as [Hin Hid].
    rewrite (read_summary_found _ _ _ F). simpl.
    assert (Hn : ~ absent) by (intros Ha; exact (Ha r Hin Hid)).
    repeat split; try discriminate; try (intros Ha; now destruct Hn).
    intros _. exists r. subst i. repeat split; assumption || reflexivity.
  - pose proof (proj1 (find_absent _ _) F) as Ha.
    rewrite (read_summary_missing _ _ F). simpl.
    repeat split; auto. intros Hn. now destruct Hn.
Qed.

(** ** Delete *)

(** C3.  Deleting an id the table holds answers with the record as Get
    would have returned it just before, removes every row with that id
    and no other, and makes the next Get of that id Not-Found.  Over
    HTTP, for the positive ids the router lets through, that is a 200
    carrying the record, then a 404. *)
Theorem delete_removes_and_returns_prior :
  forall (valid_url : string -> bool) (error_body : HTTPException -> JSON)
         (w : World Persistence.Store)
         (i : Z) (r : SummarySchema.t),
    List.find (Persistence.has_id i) (Persistence.rows (db w)) = Some r ->
    exists w',
      read_summary Persistence.crud i w = (inr r, w)
      /\ remove_summary Persistence.crud i w = (inr r, w')
      /\ read_summary Persistence.crud i w' = (inl SummaryNotFoundException, w')
      /\ (forall x, In x (Persistence.rows (db w')) <->
                    In x (Persistence.rows (db w)) /\ SummarySchema.id x <> i)
      /\ (0 < i ->
          router Persistence.crud valid_url error_body (DELETE i) w
            = (mkResponse 200 (SummarySchema_json r), w')
          /\ router Persistence.crud valid_url error_body (GET i) w'
            = (mkResponse 404 (error_body SummaryNotFoundException), w')).
Proof.
  intros valid_url error_body w i r F.
  exists (mkWorld (snd (Persistence.delete i (db w))) (background_tasks w)).
  split; [apply read_summary_found; exact F|].
  split; [apply remove_summary_found; exact F|].
  split; [apply read_summary_missing; simpl; apply find_after_delete|].
  split.
  - intros x. simpl. rewrite filter_In, negb_true_iff, has_id_false. tauto.
  - intros Hpos. apply Z.ltb_lt in Hpos.
    rewrite router_DELETE, router_GET, Hpos, F. split; [reflexivity|].
    simpl. now rewrite find_after_delete.
Qed.

(** ** Update *)

(** C4.  Updating an id the table holds returns the record with its url
    and summary replaced by the two given strings, whatever they were
    before; id and creation time stay; the same record is what a Get
    sees next.  Over HTTP, for the positive ids the router lets through,
    it is the body of a 200. *)
Theorem update_overwrites_url_and_summary :
  forall (valid_url : string -> bool) (error_body : HTTPException -> JSON)
         (w : World Persistence.Store)
         (i : Z) (r : SummarySchema.t) (u2 s2 : string),
    List.find (Persistence.has_id i) (Persistence.rows (db w)) = Some r ->
    let payload := SummaryUpdatePayloadSchema.Build u2 s2 in
    exists r' w',
      update_summary Persistence.crud i payload w = (inr r', w')
      /\ SummarySchema.url r' = u2
      /\ SummarySchema.summary r' = s2
      /\ SummarySchema.id r' = i
      /\ SummarySchema.created_at r' = SummarySchema.created_at r
      /\ read_summary Persistence.crud i w' = (inr r', w')
      /\ (0 < i ->
          router Persistence.crud valid_url error_body (PUT i payload) w
            = (mkResponse 200 (SummarySchema_json r'), w')).
Proof.
  intros valid_url error_body w i r u2 s2 F payload.
  destruct (find_present _ _ _ F) as [_ Hid].
  exists (Persistence.overwrite payload r).
  exists (mkWorld (snd (Persistence.update i payload (db w))) (background_tasks w)).
  split; [apply update_summary_found; exact F|].
  repeat split; try assumption.
  - apply read_summary_found. simpl. unfold Persistence.update. rewrite F. simpl.
    now apply find_after_update.
  - intros Hpos. apply Z.ltb_lt in Hpos. now rewrite router_PUT, Hpos, F.
Qed.

(** ** Absent ids *)

(** C5.  On an id the table does not hold, Get, Update and Delete each
    raise Not-Found and hand back the world they were given: same rows,
    same counters, same task queue.  Over HTTP, for the positive ids the
    router lets through, each is a 404 and the world is untouched. *)
Theorem absent_id_not_found_no_effect :
  forall (valid_url : string -> bool) (error_body : HTTPException -> JSON)
         (w : World Persistence.Store)
         (i : Z) (u s : string),
    (forall r, In r (Persistence.rows (db w)) -> SummarySchema.id r <> i) ->
    let payload := SummaryUpdatePayloadSchema.Build u s in
    let not_found := mkResponse 404 (error_body SummaryNotFoundException) in
    read_summary Persistence.crud i w = (inl SummaryNotFoundException, w)
    /\ update_summary Persistence.crud i payload w = (inl SummaryNotFoundException, w)
    /\ remove_summary Persistence.crud i w = (inl SummaryNotFoundException, w)
    /\ (0 < i ->
        router Persistence.crud valid_url error_body (GET i) w = (not_found, w)
        /\ router Persistence.crud valid_url error_body (PUT i payload) w = (not_found, w)
        /\ router Persistence.crud valid_url error_body (DELETE i) w = (not_found, w)).
Proof.
  intros valid_url error_body w i u s Habs payload not_found. apply find_absent in Habs.
  split; [now apply read_summary_missing|].
  split; [now apply update_summary_missing|].
  split; [now apply remove_summary_missing|].
  intros Hpos. apply Z.ltb_lt in Hpos.
  rewrite router_GET, router_PUT, router_DELETE, Hpos, Habs.
  repeat split.
Qed.

Lemma get_not_found_iff_absent_witness :
  0 < 1
  /\ (status_code
        (fst (router Persistence.crud http_prefix_url plain_error_body (GET 1) one_record_world)) = 404
      <-> forall r, In r [example_record] -> SummarySchema.id r <> 1).
Proof.
  split; [lia|].
  exact (proj1 (proj2
           (get_not_found_iff_absent http_prefix_url plain_error_body one_record_world 1 ltac:(lia)))).
Defined.

Lemma delete_removes_and_returns_prior_witness :
  List.find (Persistence.has_id 1) (Persistence.rows (db one_record_world))
    = Some example_record
  /\ exists w',
       remove_summary Persistence.crud 1 one_record_world = (inr example_record, w')
       /\ read_summary Persistence.crud 1 w' = (inl SummaryNotFoundException, w')
       /\ router Persistence.crud http_prefix_url plain_error_body (DELETE 1) one_record_world
          = (mkResponse 200 (SummarySchema_json example_record), w').
Proof.
  split; [reflexivity|].
  destruct (delete_removes_and_returns_prior http_prefix_url plain_error_body one_record_world 1
              example_record eq_refl)
    as (w' & _ & Hdel & Hget & _ & Hhttp).
  exists w'. split; [exact Hdel|]. split; [exact Hget|].
  apply Hhttp. lia.
Defined.

Lemma update_overwrites_url_and_summary_witness :
  List.find (Persistence.has_id 1) (Persistence.rows (db one_record_world))
    = Some example_record
  /\ exists r' w',
       update_summary Persistence.crud 1
         (SummaryUpdatePayloadSchema.Build "https://other.org" "edited by hand")
         one_record_world = (inr r', w')
       /\ SummarySchema.url r' = "https://other.org"
       /\ SummarySchema.summary r' = "edited by hand".
Proof.
  split; [reflexivity|].
  destruct (update_overwrites_url_and_summary http_prefix_url plain_error_body
              one_record_world 1
              example_record "https://other.org" "edited by hand" eq_refl)
    as (r' & w' & Hupd & Hurl & Hsum & _).
  exists r', w'. repeat split; assumption.
Defined.

Lemma absent_id_not_found_no_effect_witness :
  (forall r, In r (Persistence.rows (db one_record_world)) ->
             SummarySchema.id r <> 999)
  /\ remove_summary Persistence.crud 999 one_record_world
     = (inl SummaryNotFoundException, one_record_world)
  /\ router Persistence.crud http_prefix_url plain_error_body (GET 999) one_record_world
     = (mkResponse 404 (plain_error_body SummaryNotFoundException),
        one_record_world).
Proof.
  assert (H : forall r, In r (Persistence.rows (db one_record_world)) ->
                        SummarySchema.id r <> 999).
  { simpl. intros r [<-|[]]. simpl. lia. }
  split; [exact H|].
  destruct (absent_id_not_found_no_effect http_prefix_url plain_error_body
              one_record_world 999
              "u" "s" H) as (_ & _ & Hdel & Hhttp).
  split; [exact Hdel|]. apply Hhttp. lia.
Defined.

(** ** Create *)

(** C6.  Whatever the persistence layer, Create makes exactly one call
    to [crud.post], then appends exactly one task to the queue, the
    call of the summarizer on the id [crud.post] returned and the
    payload's url, specifier and sentence count, and returns.  The
    database it leaves is the one [crud.post] left: the summarizer has
    not run. *)
Theorem create_inserts_then_schedules_one_task :
  forall (DB : Type) (c : crud.t DB) (payload : SummaryPayloadSchema.t)
         (w : World DB),
    let summary_id := fst (crud.post c payload (db w)) in
    let task :=
      GenerateSummary summary_id
        (SummaryPayloadSchema.url payload)
        (SummaryPayloadSchema.summarizer_specifier payload)
        (SummaryPayloadSchema.sentence_count payload) in
    let response :=
      SummaryResponseSchema.Build
        (SummaryPayloadSchema.url payload) summary_id
        (SummaryPayloadSchema.summarizer_specifier payload)
        (SummaryPayloadSchema.sentence_count payload) in
    create_summary c payload w
    = (inr response,
       mkWorld (snd (crud.post c payload (db w))) (background_tasks w ++ [task]))
    /\ List.length (background_tasks (snd (create_summary c payload w)))
       = S (List.length (background_tasks w)).
Proof.
  intros DB c payload w. cbv zeta.
  assert (E : create_summary c payload w
              = (inr (SummaryResponseSchema.Build
                        (SummaryPayloadSchema.url payload)
                        (fst (crud.post c payload (db w)))
                        (SummaryPayloadSchema.summarizer_specifier payload)
                        (SummaryPayloadSchema.sentence_count payload)),
                 mkWorld (snd (crud.post c payload (db w)))
                   (background_tasks w ++
                    [GenerateSummary (fst (crud.post c payload (db w)))
                       (SummaryPayloadSchema.url payload)
                       (SummaryPayloadSchema.summarizer_specifier payload)
                       (SummaryPayloadSchema.sentence_count payload)]))).
  { unfold create_summary, bind, await, add_task, ret.
    destruct (crud.post c payload (db w)) as [sid d]. reflexivity. }
  split; [exact E|].
  rewrite E. simpl. rewrite length_app. simpl. apply Nat.add_1_r.
Qed.

(** ** Path validation *)

(** C8.  A path id that is zero or negative is turned away with 422 on
    Get, Update and Delete alike, whatever the persistence layer: the
    world, database included, is the one the request found.  422 is not
    the status of Not-Found. *)
Theorem nonpositive_id_is_validation_error :
  forall (DB : Type) (c : crud.t DB) (valid_url : string -> bool)
         (error_body : HTTPException -> JSON)
         (w : World DB) (i : Z) (payload : SummaryUpdatePayloadSchema.t),
    i <= 0 ->
    let rejected := (exception_handler error_body RequestValidationError, w) in
    router c valid_url error_body (GET i) w = rejected
    /\ router c valid_url error_body (PUT i payload) w = rejected
    /\ router c valid_url error_body (DELETE i) w = rejected
    /\ status_code (fst rejected) = 422
    /\ status_code (fst rejected) <> status_of SummaryNotFoundException
    /\ fst rejected <> exception_handler error_body SummaryNotFoundException.
Proof.
  intros DB c valid_url error_body w i payload Hi rejected. subst rejected.
  unfold router, respond.
  rewrite !Path_gt_rejects by exact Hi.
  repeat split; simpl; discriminate.
Qed.

Lemma nonpositive_id_is_validation_error_witness :
  0 <= 0
  /\ status_code
       (fst (router Persistence.crud http_prefix_url plain_error_body (DELETE 0) one_record_world)) = 422
  /\ snd (router Persistence.crud http_prefix_url plain_error_body (DELETE 0) one_record_world)
     = one_record_world.
Proof.
  split; [lia|].
  destruct (nonpositive_id_is_validation_error _ Persistence.crud http_prefix_url
              plain_error_body
              one_record_world 0 (SummaryUpdatePayloadSchema.Build "u" "s") ltac:(lia))
    as (_ & _ & Hdel & _).
  rewrite Hdel. split; reflexivity.
Defined.

(** ** The value of [crud.delete] *)

(** C10.  Once [crud.get] has found the record, the delete handler
    returns that record whatever boolean [crud.delete] reports, [false]
    included, and the client (whose positive id the router let through)
    is answered 200 with it; the world left is the one [crud.delete]
    left.  No failure of [crud.delete] reaches the client. *)
Theorem delete_ignores_persistence_result :
  forall (DB : Type) (c : crud.t DB) (valid_url : string -> bool)
         (error_body : HTTPException -> JSON)
         (w : World DB) (i : Z) (r : SummarySchema.t) (d1 d2 : DB) (b : bool),
    crud.get c i (db w) = (Some r, d1) ->
    crud.delete c i d1 = (b, d2) ->
    remove_summary c i w = (inr r, mkWorld d2 (background_tasks w))
    /\ (0 < i ->
        router c valid_url error_body (DELETE i) w
        = (mkResponse 200 (SummarySchema_json r), mkWorld d2 (background_tasks w))).
Proof.
  intros DB c valid_url error_body w i r d1 d2 b Hget Hdel.
  assert (E : remove_summary c i w = (inr r, mkWorld d2 (background_tasks w))).
  { unfold remove_summary, bind, await, ret. rewrite Hget. simpl.
    rewrite Hdel. reflexivity. }
  split; [exact E|].
  intros Hpos. unfold router, respond. rewrite Path_gt_accepts by exact Hpos.
  rewrite E. reflexivity.
Qed.

Lemma delete_ignores_persistence_result_witness :
  crud.get refusing_crud 1 (db one_record_world)
     = (Some example_record, db one_record_world)
  /\ crud.delete refusing_crud 1 (db one_record_world)
     = (false, db one_record_world)
  /\ router refusing_crud http_prefix_url plain_error_body (DELETE 1) one_record_world
     = (mkResponse 200 (SummarySchema_json example_record), one_record_world).
Proof.
  split; [reflexivity|]. split; [reflexivity|].
  apply (delete_ignores_persistence_result _ refusing_crud http_prefix_url
           plain_error_body one_record_world 1 example_record _ _ false
           eq_refl eq_refl).
  lia.
Defined.

(** ** What a history preserves *)

Lemma ids_after_delete i (l : list SummarySchema.t) :
  map SummarySchema.id (filter (fun x => negb (Persistence.has_id i x)) l)
  = filter (fun j => negb (j =? i)) (map SummarySchema.id l).
Proof.
  induction l as [|x l IH]; simpl; [reflexivity|].
  unfold Persistence.has_id at 1.
  destruct (SummarySchema.id x =? i); simpl; now rewrite IH.
Qed.

Lemma ids_after_rewrite (f : SummarySchema.t -> SummarySchema.t)
  (sel : SummarySchema.t -> bool) (l : list SummarySchema.t) :
  (forall x, SummarySchema.id (f x) = SummarySchema.id x) ->
  map SummarySchema.id (map (fun x => if sel x then f x else x) l)
  = map SummarySchema.id l.
Proof.
  intros Hf. rewrite map_map. apply map_ext. intros x.
  destruct (sel x); [apply Hf | reflexivity].
Qed.

Lemma filter_out_absent i (l : list Z) :
  ~ In i l -> filter (fun j => negb (j =? i)) l = l.
Proof.
  induction l as [|a l IH]; simpl; intros H; [reflexivity|].
  destruct (Z.eqb_spec a i) as [->|Hne]; simpl.
  - exfalso. apply H. now left.
  - f_equal. apply IH. intros Hin. apply H. now right.
Qed.

Lemma filter_out_present i (l : list Z) :
  NoDup l -> In i l ->
  S (List.length (filter (fun j => negb (j =? i)) l)) = List.length l.
Proof.
  induction 1 as [|a l Hnotin Hnd IH]; simpl; intros Hin; [contradiction|].
  destruct (Z.eqb_spec a i) as [->|Hne]; simpl.
  - now rewrite filter_out_absent.
  - f_equal. apply IH. destruct Hin as [Heq|Hin]; [contradiction | assumption].
Qed.

Lemma consistent_boot : consistent [] Persistence.empty.
Proof.
  constructor; simpl; try reflexivity; try constructor; try lia;
    try (intros i []); tauto.
Qed.

Lemma count_cons {A} (f : A -> bool) (x : A) (l : list A) :
  Z.of_nat (List.length (filter f (x :: l)))
  = Z.of_nat (List.length (filter f l)) + (if f x then 1 else 0).
Proof.
  cbn [filter]. destruct (f x); cbn [List.length]; lia.
Qed.

Lemma consistent_logged log st (x : Exchange) :
  is_created x = false -> is_deleted x = false ->
  consistent log st -> consistent (x :: log) st.
Proof.
  intros Hc Hd [Hlive Hnd Hids Hass Hdel Hmem Hnext Hcount].
  assert (Hl : live_ids (x :: log) = live_ids log).
  { destruct x as [[p|i| |i|i p] resp]; simpl in *;
      try rewrite Hc; try rewrite Hd; reflexivity. }
  assert (Ha : assigned_ids (x :: log) = assigned_ids log).
  { unfold assigned_ids. simpl. now rewrite Hc. }
  assert (Hdl : deleted_ids (x :: log) = deleted_ids log).
  { unfold deleted_ids. simpl. now rewrite Hd. }
  constructor; try assumption.
  - now rewrite Hl.
  - now rewrite Ha.
  - now rewrite Hdl.
  - now rewrite Hl, Ha, Hdl.
  - unfold creates, deletes in *. rewrite !count_cons, Hc, Hd. lia.
Qed.

Lemma consistent_created log st p resp :
  status_code resp = 201 -> response_id resp = Persistence.next_id st ->
  consistent log st ->
  consistent ((POST p, resp) :: log) (snd (Persistence.insert p st)).
Proof.
  intros Hs Hi [Hlive Hnd Hids Hass Hdel Hmem Hnext Hcount].
  assert (Hfresh : ~ In (Persistence.next_id st) (Persistence.ids st)).
  { intros Hin. apply Hids in Hin. lia. }
  assert (Ha : assigned_ids ((POST p, resp) :: log)
               = Persistence.next_id st :: assigned_ids log).
  { unfold assigned_ids. simpl. rewrite Hs. simpl. now rewrite Hi. }
  constructor; unfold Persistence.ids in *; simpl.
  - rewrite Hs, Hi, map_app, Hlive. reflexivity.
  - rewrite map_app. simpl.
    apply NoDup_app; [assumption | repeat constructor; intros [] | ].
    intros a Hx [<-|[]]. contradiction.
  - intros i. rewrite map_app, in_app_iff. simpl.
    intros [Hin|[<-|[]]]; [apply Hids in Hin|]; lia.
  - rewrite Ha. intros i [<-|Hin]; [|apply Hass in Hin]; lia.
  - intros i Hin. apply Hdel in Hin. lia.
  - intros i. rewrite Hs, Hi. change (201 =? 201) with true. cbv iota.
    rewrite in_app_iff, Ha, Hmem. simpl.
    change (deleted_ids ((POST p, resp) :: log)) with (deleted_ids log).
    split.
    + intros [[H1 H2]|[<-|[]]]; [tauto|].
      split; [now left|]. intros Hin. apply Hdel in Hin. lia.
    + intros [[<-|H1] H2]; tauto.
  - lia.
  - unfold creates, deletes in *. rewrite !count_cons.
    cbn [is_created is_deleted]. rewrite Hs, length_app. cbn [List.length Z.eqb Pos.eqb]. lia.
Qed.

Lemma consistent_deleted log st i resp :
  status_code resp = 200 -> In i (Persistence.ids st) ->
  consistent log st ->
  consistent ((DELETE i, resp) :: log) (snd (Persistence.delete i st)).
Proof.
  intros Hs Hin [Hlive Hnd Hids Hass Hdel Hmem Hnext Hcount].
  assert (Hdl : deleted_ids ((DELETE i, resp) :: log) = i :: deleted_ids log).
  { unfold deleted_ids. simpl. now rewrite Hs. }
  constructor; unfold Persistence.ids in *; simpl.
  - rewrite Hs. simpl. rewrite ids_after_delete, Hlive. reflexivity.
  - rewrite ids_after_delete. now apply NoDup_filter.
  - intros j. rewrite ids_after_delete, filter_In. intros [Hj _]. now apply Hids.
  - exact Hass.
  - rewrite Hdl. intros j [<-|Hj]; [now apply Hids | now apply Hdel].
  - intros j. rewrite Hs. change (200 =? 200) with true. cbv iota.
    rewrite filter_In, negb_true_iff, Z.eqb_neq, Hmem, Hdl.
    change (assigned_ids ((DELETE i, resp) :: log)) with (assigned_ids log).
    simpl. intuition congruence.
  - exact Hnext.
  - unfold creates, deletes in *. rewrite !count_cons.
    cbn [is_created is_deleted]. rewrite Hs. cbn [Z.eqb Pos.eqb].
    pose proof (filter_out_present i _ Hnd Hin) as Hlen.
    rewrite <- ids_after_delete, !length_map in Hlen. lia.
Qed.

Lemma consistent_rewritten log st l :
  map SummarySchema.id l = Persistence.ids st ->
  consistent log st ->
  consistent log (Persistence.mkStore l (Persistence.next_id st) (Persistence.clock st)).
Proof.
  intros Hl [Hlive Hnd Hids Hass Hdel Hmem Hnext Hcount].
  constructor; unfold Persistence.ids in *; simpl; try rewrite Hl; try assumption.
  rewrite <- Hcount. f_equal.
  rewrite <- (length_map SummarySchema.id l), Hl. apply length_map.
Qed.

Lemma consistent_clock log st c :
  consistent log st ->
  consistent log (Persistence.mkStore (Persistence.rows st) (Persistence.next_id st) c).
Proof.
  intros [Hlive Hnd Hids Hass Hdel Hmem Hnext Hcount]. constructor; assumption.
Qed.


(** ** Every history is consistent *)

Section History.

Variable valid_url : string -> bool.
Variable error_body : HTTPException -> JSON.
Variable summarize : string -> string -> Z -> string.

Lemma update_consistent log st i p :
  consistent log st -> consistent log (snd (Persistence.update i p st)).
Proof.
  intros H. unfold Persistence.update.
  destruct (List.find (Persistence.has_id i) (Persistence.rows st)); simpl.
  - apply consistent_rewritten; [|exact H].
    apply ids_after_rewrite. intros x. reflexivity.
  - exact H.
Qed.

Lemma run_task_consistent log st t :
  consistent log st -> consistent log (run_task summarize t st).
Proof.
  intros H. destruct t as [i u s n]. simpl. unfold generate_summary.
  apply consistent_rewritten; [|exact H].
  apply ids_after_rewrite. intros x. reflexivity.
Qed.

Lemma call_consistent req log (w : World Persistence.Store) :
  consistent log (db w) ->
  let out := router Persistence.crud valid_url error_body req w in
  consistent ((req, fst out) :: log) (db (snd out)).
Proof.
  intros H out. subst out. destruct req as [p|i| |i|i p].
  - rewrite router_POST.
    destruct (valid_url _ && _); simpl.
    + unfold create_summary, bind, await, add_task, ret. simpl.
      apply (consistent_created log (db w) p); [reflexivity | reflexivity | exact H].
    + apply consistent_logged; [reflexivity | reflexivity | exact H].
  - apply consistent_logged; [reflexivity | reflexivity |].
    rewrite router_GET.
    destruct (0 <? i); [destruct (List.find _ _)|]; exact H.
  - rewrite router_GET_ALL. simpl.
    apply consistent_logged; [reflexivity | reflexivity | exact H].
  - rewrite router_DELETE. destruct (0 <? i).
    + destruct (List.find (Persistence.has_id i) (Persistence.rows (db w))) as [r|] eqn:F.
      * cbn [fst snd db]. apply consistent_deleted; [reflexivity | | exact H].
        destruct (find_present _ _ _ F) as [Hin <-].
        unfold Persistence.ids. now apply in_map.
      * apply consistent_logged; [reflexivity | reflexivity | exact H].
    + apply consistent_logged; [reflexivity | reflexivity | exact H].
  - apply consistent_logged; [reflexivity | reflexivity |].
    rewrite router_PUT.
    destruct (0 <? i); [destruct (List.find _ _) eqn:F|]; try exact H.
    cbn [snd db]. now apply update_consistent.
Qed.

Lemma step_consistent e log (w : World Persistence.Store) :
  consistent log (db w) ->
  let out := step valid_url error_body summarize e (log, w) in
  consistent (fst out) (db (snd out)).
Proof.
  intros H out. subst out. destruct e as [req| |]; simpl.
  - pose proof (call_consistent req log w H) as Hc. cbv zeta in Hc.
    destruct (router Persistence.crud valid_url error_body req w) as [resp w1]. exact Hc.
  - destruct (background_tasks w) as [|t rest]; simpl; [exact H|].
    now apply run_task_consistent.
  - now apply consistent_clock.
Qed.

Lemma serve_snoc es e :
  serve valid_url error_body summarize (es ++ [e])
  = step valid_url error_body summarize e (serve valid_url error_body summarize es).
Proof. unfold serve. now rewrite fold_left_app. Qed.

Lemma serve_consistent es :
  consistent (fst (serve valid_url error_body summarize es))
             (db (snd (serve valid_url error_body summarize es))).
Proof.
  induction es as [|e es IH] using rev_ind.
  - exact consistent_boot.
  - rewrite serve_snoc.
    destruct (serve valid_url error_body summarize es) as [log w].
    now apply step_consistent.
Qed.

End History.

(** ** Create, in a running service *)

(** C1.  In any state the service can reach, creating with a valid url
    [u], any specifier [s] and a positive count [n] answers 201 with
    exactly the four fields url, id, summarizer_specifier and
    sentence_count, the three inputs unchanged and an id that no create
    of the history was given and no stored record carries; there is no
    summary field in the answer. *)
Theorem create_echoes_input_with_fresh_id :
  forall (valid_url : string -> bool) (error_body : HTTPException -> JSON)
         (summarize : string -> string -> Z -> string)
         (es : list Event) (log : list Exchange) (w : World Persistence.Store)
         (u s : string) (n : Z),
    serve valid_url error_body summarize es = (log, w) ->
    valid_url u = true ->
    0 < n ->
    exists (i : Z) (w' : World Persistence.Store),
      create_summary Persistence.crud (SummaryPayloadSchema.Build u s n) w
        = (inr (SummaryResponseSchema.Build u i s n), w')
      /\ router Persistence.crud valid_url error_body (POST (SummaryPayloadSchema.Build u s n)) w
         = (mkResponse 201
              (JObject [ ("url", JStr u); ("id", JInt i);
                         ("summarizer_specifier", JStr s);
                         ("sentence_count", JInt n) ]),
            w')
      /\ ~ In i (assigned_ids log)
      /\ (forall r, In r (Persistence.rows (db w)) -> SummarySchema.id r <> i).
Proof.
  intros valid_url error_body summarize es log w u s n Hserve Hurl Hn.
  pose proof (serve_consistent valid_url error_body summarize es) as Hinv.
  rewrite Hserve in Hinv. simpl in Hinv.
  destruct Hinv as [_ _ Hids Hass _ _ _ _].
  exists (Persistence.next_id (db w)).
  exists (snd (create_summary Persistence.crud (SummaryPayloadSchema.Build u s n) w)).
  split; [reflexivity|]. split.
  - rewrite router_POST. simpl. rewrite Hurl.
    destruct (Z.ltb_spec 0 n); [reflexivity | lia].
  - split.
    + intros Hin. apply Hass in Hin. lia.
    + intros r Hr Heq.
      assert (Hin : In (Persistence.next_id (db w)) (Persistence.ids (db w))).
      { rewrite <- Heq. unfold Persistence.ids. now apply in_map. }
      apply Hids in Hin. lia.
Qed.

Lemma create_echoes_input_with_fresh_id_witness :
  serve http_prefix_url plain_error_body first_words
    [Call (POST example_payload); Call (DELETE 1)]
  = ([ (DELETE 1, mkResponse 200 (SummarySchema_json example_record));
       (POST example_payload,
        mkResponse 201
          (SummaryResponseSchema_json
             (SummaryResponseSchema.Build "https://example.com" 1 "default" 3))) ],
     mkWorld (Persistence.mkStore [] 2 0)
       [GenerateSummary 1 "https://example.com" "default" 3])
  /\ http_prefix_url "https://b.org" = true
  /\ 0 < 2
  /\ exists i w',
       create_summary Persistence.crud
         (SummaryPayloadSchema.Build "https://b.org" "lsa" 2)
         (mkWorld (Persistence.mkStore [] 2 0)
            [GenerateSummary 1 "https://example.com" "default" 3])
       = (inr (SummaryResponseSchema.Build "https://b.org" i "lsa" 2), w')
       /\ ~ In i [1].
Proof.
  split; [reflexivity|]. split; [reflexivity|]. split; [lia|].
  destruct (create_echoes_input_with_fresh_id http_prefix_url plain_error_body first_words
              [Call (POST example_payload); Call (DELETE 1)] _ _
              "https://b.org" "lsa" 2 eq_refl eq_refl ltac:(lia))
    as (i & w' & Hcreate & _ & Hfresh & _).
  exists i, w'. split; [exact Hcreate | exact Hfresh].
Defined.

(** ** Get-all, in a running service *)

(** C7.  In any state the service can reach, Get-all answers with the
    whole table, nothing held back: a record is in the answer exactly
    when a create of the history assigned its id and no delete of the
    history removed it; the records come oldest first, each once, and
    their number is the number of successful creates less the number of
    successful deletes. *)
Theorem get_all_returns_live_records :
  forall (valid_url : string -> bool) (error_body : HTTPException -> JSON)
         (summarize : string -> string -> Z -> string)
         (es : list Event) (log : list Exchange) (w : World Persistence.Store),
    serve valid_url error_body summarize es = (log, w) ->
    exists all : list SummarySchema.t,
      read_all_summaries Persistence.crud w = (inr all, w)
      /\ router Persistence.crud valid_url error_body GET_ALL w
         = (mkResponse 200 (JArray (map SummarySchema_json all)), w)
      /\ all = Persistence.rows (db w)
      /\ (forall i, In i (map SummarySchema.id all) <->
                    In i (assigned_ids log) /\ ~ In i (deleted_ids log))
      /\ map SummarySchema.id all = live_ids log
      /\ NoDup (map SummarySchema.id all)
      /\ Z.of_nat (List.length all) = creates log - deletes log.
Proof.
  intros valid_url error_body summarize es log w Hserve.
  pose proof (serve_consistent valid_url error_body summarize es) as Hinv.
  rewrite Hserve in Hinv. simpl in Hinv.
  destruct Hinv as [Hlive Hnd _ _ _ Hmem _ Hcount].
  exists (Persistence.rows (db w)).
  split; [run_handler; now destruct w|].
  split; [apply router_GET_ALL|].
  split; [reflexivity|].
  split; [intros i; fold (Persistence.ids (db w)); rewrite Hlive; apply Hmem|].
  repeat split; assumption.
Qed.

Lemma get_all_returns_live_records_witness :
  let es := [ Call (POST example_payload); Tick; Call (POST example_payload);
              RunTask; Call (DELETE 1); Call (DELETE 1); Call (GET 2) ] in
  exists log w,
    serve http_prefix_url plain_error_body first_words es = (log, w)
    /\ creates log = 2 /\ deletes log = 1
    /\ exists all,
         read_all_summaries Persistence.crud w = (inr all, w)
         /\ Z.of_nat (List.length all) = 1
         /\ map SummarySchema.id all = [2].
Proof.
  intros es.
  destruct (serve http_prefix_url plain_error_body first_words es) as [log w] eqn:E.
  exists log, w. split; [reflexivity|].
  destruct (get_all_returns_live_records http_prefix_url plain_error_body first_words es log w E)
    as (all & Hread & _ & _ & _ & Hlive & _ & Hcount).
  vm_compute in E. injection E as <- <-.
  split; [reflexivity|]. split; [reflexivity|].
  exists all. split; [exact Hread|]. split; [exact Hcount | exact Hlive].
Defined.

(** ** The body of a delete response *)

(** C9, as stated, fails: after one create, deleting id 1 answers with
    a body that has a [summary] field, which is neither [id] nor
    [url]. *)
Lemma delete_body_is_not_only_id_and_url :
  snd (serve http_prefix_url plain_error_body first_words [Call (POST example_payload)])
    = one_record_world
  /\ List.find (Persistence.has_id 1) (Persistence.rows (db one_record_world))
     = Some example_record
  /\ ~ (forall k,
          In k (field_names
                  (content (fst (router Persistence.crud http_prefix_url plain_error_body
                                   (DELETE 1) one_record_world))))
          <-> In k ["id"; "url"]).
Proof.
  split; [reflexivity|]. split; [reflexivity|].
  intros H. destruct (H "summary") as [Hextra _].
  assert (Hin : In "summary" ["id"; "url"]).
  { apply Hextra. simpl. tauto. }
  simpl in Hin. destruct Hin as [E|[E|[]]]; discriminate E.
Qed.

(** C9, amended.  In any state the service can reach, deleting an id the
    table holds answers 200 with a body of exactly the four fields id,
    url, summary and created_at, holding the record as Get returned it
    just before the delete. *)
Theorem delete_body_is_full_prior_record :
  forall (valid_url : string -> bool) (error_body : HTTPException -> JSON)
         (summarize : string -> string -> Z -> string)
         (es : list Event) (log : list Exchange) (w : World Persistence.Store)
         (i : Z) (r : SummarySchema.t),
    serve valid_url error_body summarize es = (log, w) ->
    List.find (Persistence.has_id i) (Persistence.rows (db w)) = Some r ->
    let resp := fst (router Persistence.crud valid_url error_body (DELETE i) w) in
    read_summary Persistence.crud i w = (inr r, w)
    /\ status_code resp = 200
    /\ content resp
       = JObject [ ("id", JInt i);
                   ("url", JStr (SummarySchema.url r));
                   ("summary", JStr (SummarySchema.summary r));
                   ("created_at", JInt (SummarySchema.created_at r)) ]
    /\ field_names (content resp) = ["id"; "url"; "summary"; "created_at"].
Proof.
  intros valid_url error_body summarize es log w i r Hserve F resp. subst resp.
  pose proof (serve_consistent valid_url error_body summarize es) as Hinv.
  rewrite Hserve in Hinv. simpl in Hinv.
  destruct (find_present _ _ _ F) as [Hin Hid].
  assert (Hpos : 0 < i).
  { apply (ids_below_next _ _ Hinv). rewrite <- Hid.
    unfold Persistence.ids. now apply in_map. }
  split; [now apply read_summary_found|].
  rewrite router_DELETE, F.
  destruct (Z.ltb_spec 0 i); [|lia].
  subst i. repeat split.
Qed.

Lemma delete_body_is_full_prior_record_witness :
  serve http_prefix_url plain_error_body first_words [Call (POST example_payload)]
    = ([ (POST example_payload,
          mkResponse 201
            (SummaryResponseSchema_json
               (SummaryResponseSchema.Build "https://example.com" 1 "default" 3))) ],
       one_record_world)
  /\ List.find (Persistence.has_id 1) (Persistence.rows (db one_record_world))
     = Some example_record
  /\ content (fst (router Persistence.crud http_prefix_url plain_error_body (DELETE 1) one_record_world))
     = JObject [ ("id", JInt 1); ("url", JStr "https://example.com");
                 ("summary", JStr ""); ("created_at", JInt 0) ].
Proof.
  split; [reflexivity|]. split; [reflexivity|].
  exact (proj1 (proj2 (proj2
           (delete_body_is_full_prior_record http_prefix_url plain_error_body first_words
              [Call (POST example_payload)] _ one_record_world 1 example_record
              eq_refl eq_refl)))).
Defined.

(** * Further properties of the handlers *)

(** ** What only Create does *)

(** X1.  Whatever the persistence layer, reading one summary, reading
    all, removing and updating leave the queue of background tasks as
    they found it: an update does not ask for a new summary, a delete
    does not cancel a pending one. *)
Theorem only_create_schedules_tasks :
  forall (DB : Type) (c : crud.t DB) (w : World DB) (i : Z)
         (payload : SummaryUpdatePayloadSchema.t),
    background_tasks (snd (read_summary c i w)) = background_tasks w
    /\ background_tasks (snd (read_all_summaries c w)) = background_tasks w
    /\ background_tasks (snd (remove_summary c i w)) = background_tasks w
    /\ background_tasks (snd (update_summary c i payload w)) = background_tasks w.
Proof.
  intros DB c w i payload.
  unfold read_summary, read_all_summaries, remove_summary, update_summary,
         bind, await, raise, ret.
  destruct (crud.get c i (db w)) as [[r|] d1];
    destruct (crud.get_all c (db w)) as [l d2];
    destruct (crud.put c i payload (db w)) as [[r'|] d3];
    cbn [snd fst db background_tasks];
    try destruct (crud.delete c i d1) as [b d4];
    repeat split.
Qed.

(** ** Delete on a miss *)

(** X2.  When [crud.get] finds nothing, the delete handler raises
    Not-Found without calling [crud.delete]: the database is the one
    [crud.get] left, whatever [crud.delete] would have done to it. *)
Theorem delete_miss_never_calls_delete :
  forall (DB : Type) (c : crud.t DB) (d : Z -> DB -> bool * DB)
         (w : World DB) (i : Z) (d1 : DB),
    crud.get c i (db w) = (None, d1) ->
    remove_summary (with_delete c d) i w
    = (inl SummaryNotFoundException, mkWorld d1 (background_tasks w)).
Proof.
  intros DB c d w i d1 Hget.
  unfold remove_summary, bind, await, raise. cbn [with_delete crud.get].
  rewrite Hget. reflexivity.
Qed.

Lemma delete_miss_never_calls_delete_witness :
  crud.get Persistence.crud 999 (db one_record_world)
    = (None, db one_record_world)
  /\ remove_summary (with_delete Persistence.crud wipe) 999 one_record_world
     = (inl SummaryNotFoundException, one_record_world).
Proof.
  split; [reflexivity|].
  exact (delete_miss_never_calls_delete _ Persistence.crud wipe
           one_record_world 999 _ eq_refl).
Defined.

(** ** Status codes *)

(** X3.  Whatever the persistence layer: a create is answered 201 or
    422 and never 404; Get-all is always answered 200; Get, Update and
    Delete are answered 200, 404 or 422. *)
Theorem status_by_route :
  forall (DB : Type) (c : crud.t DB) (valid_url : string -> bool)
         (error_body : HTTPException -> JSON) (w : World DB) (req : Request),
    let status := status_code (fst (router c valid_url error_body req w)) in
    match req with
    | POST _ => status = 201 \/ status = 422
    | GET_ALL => status = 200
    | GET _ | DELETE _ | PUT _ _ => status = 200 \/ status = 404 \/ status = 422
    end.
Proof.
  intros DB c valid_url error_body w req.
  destruct req as [p|i| |i|i p]; cbv zeta;
    unfold router, respond, bind, validate_payload, Path_gt,
           create_summary, read_summary, read_all_summaries, remove_summary,
           update_summary, bind, await, add_task, raise, ret.
  - destruct (valid_url _ && _); [|now right].
    destruct (crud.post c p (db w)). now left.
  - destruct (0 <? i); [|now right; right].
    destruct (crud.get c i (db w)) as [[r|] d1]; [now left | now right; left].
  - destruct (crud.get_all c (db w)). reflexivity.
  - destruct (0 <? i); [|now right; right].
    destruct (crud.get c i (db w)) as [[r|] d1]; [|now right; left].
    cbn [db]. destruct (crud.delete c i d1). now left.
  - destruct (0 <? i); [|now right; right].
    destruct (crud.put c i p (db w)) as [[r|] d1]; [now left | now right; left].
Qed.



(** ** The queue of background tasks, in a running service *)

Section Queue.

Variable valid_url : string -> bool.
Variable error_body : HTTPException -> JSON.
Variable summarize : string -> string -> Z -> string.




End Queue.



(** ** Create, then Get *)

Lemma find_appended i (l : list SummarySchema.t) r :
  List.find (Persistence.has_id i) l = None ->
  Persistence.has_id i r = true ->
  List.find (Persistence.has_id i) (l ++ [r]) = Some r.
Proof.
  intros Hnone Hr. induction l as [|x l IH]; simpl in *.
  - now rewrite Hr.
  - destruct (Persistence.has_id i x); [discriminate | now apply IH].
Qed.

(** X6.  In any state the service can reach, a Get of the id a create
    has just returned finds the new record: the id, the url of the
    request, an empty summary (the background task has been scheduled,
    not run) and the time of the create. *)
Theorem create_then_get_round_trip :
  forall (valid_url : string -> bool) (error_body : HTTPException -> JSON)
         (summarize : string -> string -> Z -> string)
         (es : list Event) (log : list Exchange) (w : World Persistence.Store)
         (payload : SummaryPayloadSchema.t),
    serve valid_url error_body summarize es = (log, w) ->
    exists (response : SummaryResponseSchema.t) (w' : World Persistence.Store),
      create_summary Persistence.crud payload w = (inr response, w')
      /\ let stored :=
           SummarySchema.Build (SummaryResponseSchema.id response)
             (SummaryPayloadSchema.url payload) "" (Persistence.clock (db w)) in
         read_summary Persistence.crud (SummaryResponseSchema.id response) w'
           = (inr stored, w')
         /\ router Persistence.crud valid_url error_body
              (GET (SummaryResponseSchema.id response)) w'
            = (mkResponse 200 (SummarySchema_json stored), w').
Proof.
  intros valid_url error_body summarize es log w payload Hserve.
  pose proof (serve_consistent valid_url error_body summarize es) as Hinv.
  rewrite Hserve in Hinv. simpl in Hinv.
  destruct Hinv as [_ _ Hids _ _ _ Hnext _].
  do 2 eexists. split; [reflexivity|]. cbv zeta. cbn [SummaryResponseSchema.id fst].
  assert (F : List.find (Persistence.has_id (Persistence.next_id (db w)))
                (Persistence.rows (db w) ++
                 [SummarySchema.Build (Persistence.next_id (db w))
                    (SummaryPayloadSchema.url payload) "" (Persistence.clock (db w))])
              = Some (SummarySchema.Build (Persistence.next_id (db w))
                        (SummaryPayloadSchema.url payload) ""
                        (Persistence.clock (db w)))).
  { apply find_appended.
    - apply find_absent. intros r Hr Heq.
      assert (Hin : In (Persistence.next_id (db w)) (Persistence.ids (db w))).
      { rewrite <- Heq. unfold Persistence.ids. now apply in_map. }
      apply Hids in Hin. lia.
    - apply has_id_true. reflexivity. }
  split.
  - apply read_summary_found. exact F.
  - rewrite router_GET. apply Z.ltb_lt in Hnext. rewrite Hnext.
    cbn [snd db Persistence.insert Persistence.rows Persistence.crud crud.post].
    simpl Persistence.rows. rewrite F. reflexivity.
Qed.

Lemma create_then_get_round_trip_witness :
  serve http_prefix_url plain_error_body first_words
    [Call (POST example_payload); Tick]
  = ([ (POST example_payload,
        mkResponse 201
          (SummaryResponseSchema_json
             (SummaryResponseSchema.Build "https://example.com" 1 "default" 3))) ],
     mkWorld (Persistence.mkStore [example_record] 2 1)
       [GenerateSummary 1 "https://example.com" "default" 3])
  /\ exists response w',
       create_summary Persistence.crud
         (SummaryPayloadSchema.Build "https://b.org" "lsa" 2)
         (mkWorld (Persistence.mkStore [example_record] 2 1)
            [GenerateSummary 1 "https://example.com" "default" 3])
       = (inr response, w')
       /\ read_summary Persistence.crud (SummaryResponseSchema.id response) w'
          = (inr (SummarySchema.Build (SummaryResponseSchema.id response)
                    "https://b.org" "" 1), w').
Proof.
  split; [reflexivity|].
  destruct (create_then_get_round_trip http_prefix_url plain_error_body first_words
              [Call (POST example_payload); Tick] _ _
              (SummaryPayloadSchema.Build "https://b.org" "lsa" 2) eq_refl)
    as (response & w' & Hcreate & Hget & _).
  exists response, w'. split; [exact Hcreate | exact Hget].
Defined.

(** ** Other records *)

Lemma find_other_after_update i j p (l : list SummarySchema.t) :
  j <> i ->
  List.find (Persistence.has_id j)
    (map (fun x => if Persistence.has_id i x then Persistence.overwrite p x else x) l)
  = List.find (Persistence.has_id j) l.
Proof.
  intros Hne. induction l as [|x l IH]; simpl; [reflexivity|].
  destruct (Persistence.has_id i x) eqn:Ei.
  - apply has_id_true in Ei.
    assert (Ej : Persistence.has_id j x = false) by (apply has_id_false; congruence).
    unfold Persistence.has_id in *. rewrite overwrite_id, Ej. exact IH.
  - destruct (Persistence.has_id j x); [reflexivity | exact IH].
Qed.

Lemma find_other_after_delete i j (l : list SummarySchema.t) :
  j <> i ->
  List.find (Persistence.has_id j)
    (filter (fun x => negb (Persistence.has_id i x)) l)
  = List.find (Persistence.has_id j) l.
Proof.
  intros Hne. induction l as [|x l IH]; simpl; [reflexivity|].
  destruct (Persistence.has_id i x) eqn:Ei; simpl.
  - apply has_id_true in Ei.
    assert (Ej : Persistence.has_id j x = false) by (apply has_id_false; congruence).
    now rewrite Ej.
  - destruct (Persistence.has_id j x); [reflexivity | exact IH].
Qed.

Lemma read_summary_by_find (w1 w2 : World Persistence.Store) j :
  List.find (Persistence.has_id j) (Persistence.rows (db w1))
  = List.find (Persistence.has_id j) (Persistence.rows (db w2)) ->
  fst (read_summary Persistence.crud j w1) = fst (read_summary Persistence.crud j w2).
Proof.
  intros H.
  destruct (List.find (Persistence.has_id j) (Persistence.rows (db w2))) as [r|] eqn:F.
  - now rewrite (read_summary_found _ _ _ H), (read_summary_found _ _ _ F).
  - now rewrite (read_summary_missing _ _ H), (read_summary_missing _ _ F).
Qed.

(** X7.  An Update or a Delete of one id, whether it succeeds or
    signals Not-Found, leaves what Get returns for every other id as it
    was: the same record, or Not-Found as before. *)
Theorem other_ids_undisturbed :
  forall (w : World Persistence.Store) (i j : Z)
         (payload : SummaryUpdatePayloadSchema.t),
    j <> i ->
    fst (read_summary Persistence.crud j
           (snd (update_summary Persistence.crud i payload w)))
      = fst (read_summary Persistence.crud j w)
    /\ fst (read_summary Persistence.crud j
              (snd (remove_summary Persistence.crud i w)))
       = fst (read_summary Persistence.crud j w).
Proof.
  intros w i j payload Hne.
  destruct (List.find (Persistence.has_id i) (Persistence.rows (db w))) as [r|] eqn:F.
  - rewrite (update_summary_found _ _ payload _ F), (remove_summary_found _ _ _ F).
    split; apply read_summary_by_find; cbn [snd db].
    + unfold Persistence.update. rewrite F. cbn [snd Persistence.rows].
      now apply find_other_after_update.
    + cbn [Persistence.delete snd Persistence.rows].
      now apply find_other_after_delete.
  - rewrite (update_summary_missing _ _ payload F), (remove_summary_missing _ _ F).
    split; reflexivity.
Qed.

Lemma other_ids_undisturbed_witness :
  1 <> 2
  /\ fst (read_summary Persistence.crud 1
            (snd (remove_summary Persistence.crud 2
                    (mkWorld (Persistence.mkStore
                                [example_record;
                                 SummarySchema.Build 2 "https://b.org" "text" 5] 3 6)
                             []))))
     = inr example_record.
Proof.
  split; [lia|].
  exact (proj2 (other_ids_undisturbed
                  (mkWorld (Persistence.mkStore
                              [example_record;
                               SummarySchema.Build 2 "https://b.org" "text" 5] 3 6)
                           [])
                  2 1 (SummaryUpdatePayloadSchema.Build "u" "s") ltac:(lia))).
Defined.

(** ** Reads *)

Section Reads.

Variable valid_url : string -> bool.
Variable error_body : HTTPException -> JSON.
Variable summarize : string -> string -> Z -> string.

Lemma step_world_ignores_log e log1 log2 (w : World Persistence.Store) :
  snd (step valid_url error_body summarize e (log1, w))
  = snd (step valid_url error_body summarize e (log2, w)).
Proof.
  destruct e as [req| |]; simpl.
  - now destruct (router Persistence.crud valid_url error_body req w).
  - now destruct (background_tasks w).
  - reflexivity.
Qed.

Lemma read_step_keeps_world e log (w : World Persistence.Store) :
  is_read e = true ->
  snd (step valid_url error_body summarize e (log, w)) = w.
Proof.
  destruct e as [[p|i| |i|i p]| |]; try discriminate; intros _; unfold step.
  - rewrite router_GET.
    destruct (0 <? i); [destruct (List.find _ _)|]; reflexivity.
  - now rewrite router_GET_ALL.
Qed.

End Reads.

(** X8.  Get and Get-all leave no trace: striking every Get and Get-all
    request out of a history of requests, task runs and clock ticks
    leads the service to the same database and the same queue of
    tasks. *)
Theorem reads_leave_no_trace :
  forall (valid_url : string -> bool) (error_body : HTTPException -> JSON)
         (summarize : string -> string -> Z -> string) (es : list Event),
    snd (serve valid_url error_body summarize
           (filter (fun e => negb (is_read e)) es))
    = snd (serve valid_url error_body summarize es).
Proof.
  intros valid_url error_body summarize es.
  induction es as [|e es IH] using rev_ind; [reflexivity|].
  rewrite filter_app, (serve_snoc _ _ _ es e). cbn [filter].
  destruct (is_read e) eqn:R; cbn [negb].
  - rewrite app_nil_r, IH.
    destruct (serve valid_url error_body summarize es) as [log w].
    symmetry. now apply read_step_keeps_world.
  - rewrite serve_snoc.
    destruct (serve valid_url error_body summarize es) as [log w].
    destruct (serve valid_url error_body summarize _) as [log' w'].
    simpl in IH. subst w'. apply step_world_ignores_log.
Qed.

(** ** Get-all and Get agree *)

Lemma find_unique (l : list SummarySchema.t) r :
  NoDup (map SummarySchema.id l) -> In r l ->
  List.find (Persistence.has_id (SummarySchema.id r)) l = Some r.
Proof.
  induction l as [|x l IH]; simpl; intros Hnd Hin; [contradiction|].
  inversion Hnd as [|? ? Hfresh Hrest]; subst.
  destruct Hin as [->|Hin].
  - unfold Persistence.has_id. now rewrite Z.eqb_refl.
  - destruct (Persistence.has_id (SummarySchema.id r) x) eqn:E.
    + apply has_id_true in E. exfalso. apply Hfresh. rewrite E. now apply in_map.
    + now apply IH.
Qed.

(** X9.  In any state the service can reach, every record Get-all
    returns can be fetched by its id: Get of that id is let through by
    the router and answers 200 with that very record. *)
Theorem every_listed_record_can_be_fetched :
  forall (valid_url : string -> bool) (error_body : HTTPException -> JSON)
         (summarize : string -> string -> Z -> string)
         (es : list Event) (log : list Exchange) (w : World Persistence.Store)
         (all : list SummarySchema.t) (r : SummarySchema.t),
    serve valid_url error_body summarize es = (log, w) ->
    fst (read_all_summaries Persistence.crud w) = inr all ->
    In r all ->
    read_summary Persistence.crud (SummarySchema.id r) w = (inr r, w)
    /\ router Persistence.crud valid_url error_body (GET (SummarySchema.id r)) w
       = (mkResponse 200 (SummarySchema_json r), w).
Proof.
  intros valid_url error_body summarize es log w all r Hserve Hall Hin.
  pose proof (serve_consistent valid_url error_body summarize es) as Hinv.
  rewrite Hserve in Hinv. simpl in Hinv.
  destruct Hinv as [_ Hnd Hids _ _ _ _ _].
  unfold read_all_summaries, await in Hall. simpl in Hall.
  injection Hall as <-.
  pose proof (find_unique _ _ Hnd Hin) as F.
  split; [now apply read_summary_found|].
  assert (Hpos : 0 < SummarySchema.id r).
  { apply Hids. unfold Persistence.ids. now apply in_map. }
  apply Z.ltb_lt in Hpos. now rewrite router_GET, Hpos, F.
Qed.

Lemma every_listed_record_can_be_fetched_witness :
  serve http_prefix_url plain_error_body first_words
    [Call (POST example_payload)]
  = ([ (POST example_payload,
        mkResponse 201
          (SummaryResponseSchema_json
             (SummaryResponseSchema.Build "https://example.com" 1 "default" 3))) ],
     one_record_world)
  /\ fst (read_all_summaries Persistence.crud one_record_world) = inr [example_record]
  /\ In example_record [example_record]
  /\ read_summary Persistence.crud 1 one_record_world
     = (inr example_record, one_record_world).
Proof.
  split; [reflexivity|]. split; [reflexivity|]. split; [now left|].
  exact (proj1 (every_listed_record_can_be_fetched http_prefix_url plain_error_body
                  first_words [Call (POST example_payload)] _ one_record_world
                  [example_record] example_record eq_refl eq_refl
                  (or_introl eq_refl))).
Defined.
